(** * webpack.config.js: the configuration function, embedded and verified

    The repository has one program, [webpack.config.js]: a module that reads
    [process.env.NODE_ENV] once when it is loaded and exports a function
    from the [--env] object to a webpack configuration object.  The
    function is embedded below as [module_exports]; the constants keep the
    names they have in the source. *)

From Stdlib Require Import Ascii String List ZArith Bool SpecFloat Lia.
Import ListNotations.
Open Scope string_scope.
Open Scope list_scope.

(** ** JavaScript values

    The values the function can be handed and the values it writes in
    object literals.  Numbers are IEEE 754 doubles ([spec_float]); the
    object-like values (functions, regular expressions, arrays, plain
    objects) carry what identifies them in the source text.  A plain
    object is its own data properties in insertion order, keys unique. *)

#[warnings="-register-all"]
Inductive value : Type :=
| VUndefined
| VNull
| VBool (b : bool)
| VNumber (x : spec_float)
| VBigInt (z : Z)
| VString (s : string)
| VSymbol (description : string)
| VFunction (name : string)
| VRegExp (source : string)
| VArray (items : list value)
| VObject (props : list (string * value)).

(** A numeric literal of the source such as [8]. *)
Definition number (p : positive) : value := VNumber (S754_finite false p 0).

(** ECMAScript ToBoolean: what [c ? a : b] tests. *)
Definition ToBoolean (v : value) : bool :=
  match v with
  | VUndefined | VNull => false
  | VBool b => b
  | VNumber (S754_zero _) | VNumber S754_nan => false
  | VNumber _ => true
  | VBigInt z => negb (Z.eqb z 0)
  | VString s => negb (String.eqb s "")
  | VSymbol _ | VFunction _ | VRegExp _ | VArray _ | VObject _ => true
  end.

(** [x === s] for a string primitive [s] (IsStrictlyEqual): [x] has to be a
    string primitive with the same characters. *)
Definition strict_equals (x : value) (s : string) : bool :=
  match x with
  | VString t => String.eqb t s
  | _ => false
  end.

(** ** Completions

    A property read is the one operation of the program that can throw:
    the TypeError the language raises for a read on [undefined] or [null],
    or whatever value a getter or a proxy trap of the object throws. *)

Inductive Error : Type :=
| TypeError
| Thrown (v : value).

Inductive completion (A : Type) : Type :=
| Return (a : A)
| Throw (e : Error).
Arguments Return {A} a.
Arguments Throw {A} e.

Definition bind {A B : Type} (c : completion A) (k : A -> completion B)
  : completion B :=
  match c with
  | Return a => k a
  | Throw e => Throw e
  end.

Notation "x <- c ;; k" := (bind c (fun x => k))
  (at level 61, c at next level, right associativity).

Fixpoint lookup (key : string) (props : list (string * value)) : option value :=
  match props with
  | [] => None
  | (k, v) :: rest => if String.eqb k key then Some v else lookup key rest
  end.

(** [o.key] (GetValue of a property reference) on plain data, which is
    what [value] holds: a TypeError on [undefined] and [null]; the own data
    property of a plain object, else [undefined].  The built-in prototypes
    are the standard ones, and the own properties of the built-in exotic
    objects ([length], indices, [name], ...) are left out: the program
    reads the one key [report], which none of them defines.  Objects with
    inherited properties, getters or proxy traps are not in [value]; they
    are read by [GetV] below. *)
Definition Get (o : value) (key : string) : completion value :=
  match o with
  | VUndefined | VNull => Throw TypeError
  | VObject props =>
      Return (match lookup key props with Some v => v | None => VUndefined end)
  | _ => Return VUndefined
  end.

(** ** What the module imports

    Node's [path] functions are kept as terms over [__dirname]: the
    configuration stores their results and never inspects them. *)

Inductive Dir : Type := __dirname.

Inductive Path : Type :=
| path_resolve (from : Dir) (to : string)
| path_join (from : Dir) (to : string).

(** [require('eslint-friendly-formatter')]. *)
Definition eslintFriendlyFormatter : value := VFunction "eslint-friendly-formatter".

(** The plugin classes; a plugin object is the class with the argument of
    its [new] expression. *)
Inductive Plugin : Type :=
| EnvironmentPlugin (defaults : list (string * value))
| ProvidePlugin (definitions : list (string * value))
| LodashModuleReplacementPlugin (options : list (string * value))
| UglifyJsPlugin (options : list (string * value))
| BundleAnalyzerPlugin.

(** ** The shape of the configuration object *)

Record Rule : Type := {
  enforce : option string;
  exclude : value;
  loader : string;
  options : list (string * value);
  test : value
}.

Record Output : Type := {
  filename : string;
  library : string;
  libraryTarget : string;
  path : Path
}.

Record Resolve : Type := {
  alias : list (string * Path);
  extensions : list string
}.

Record Config : Type := {
  context : Path;
  devtool : string;
  entry : list Path;
  module_rules : list Rule;
  node : list (string * value);
  output : Output;
  plugins : list Plugin;
  resolve : Resolve
}.

(** ** Module-level constants (lines 27-54) *)

Definition PRODUCTION : string := "production".

Definition DEVELOPMENT : string := "development".

Definition DEFAULT_EXCLUDE_RX : value := VRegExp "node_modules".

Definition WHATWG_FETCH : string :=
  "imports-loader?this=>global!exports-loader?global.fetch!whatwg-fetch".

Definition DEFAULT_ENV : value := VObject [("report", VBool false)].

(** ** The object literals of the configuration, named *)

(** The eslint-loader rule (lines 116-129). *)
Definition eslint_rule : Rule := {|
  enforce := Some "pre";
  exclude := DEFAULT_EXCLUDE_RX;
  loader := "eslint-loader";
  options := [("emitError", VBool true);
              ("emitWarning", VBool false);
              ("failOnError", VBool true);
              ("failOnWarning", VBool false);
              ("formatter", eslintFriendlyFormatter);
              ("quiet", VBool true)];
  test := VRegExp "\.(js|json)$"
|}.

(** The babel-loader rule (lines 136-149); it has no [enforce] key. *)
Definition babel_rule : Rule := {|
  enforce := None;
  exclude := DEFAULT_EXCLUDE_RX;
  loader := "babel-loader";
  options := [("plugins", VArray [VString "lodash"]);
              ("presets",
               VArray [VArray [VString "env";
                               VObject [("modules", VBool false);
                                        ("targets", VObject [("node", number 8)])]]])];
  test := VRegExp "\.js$"
|}.

(** [new webpack.EnvironmentPlugin({...})] (lines 193-196). *)
Definition environmentPlugin : Plugin :=
  EnvironmentPlugin [("DEBUG", VBool false); ("NODE_ENV", VString DEVELOPMENT)].

(** [new webpack.ProvidePlugin({...})] (lines 204-207). *)
Definition providePlugin : Plugin :=
  ProvidePlugin [("fetch", VString WHATWG_FETCH);
                 ("window.fetch", VString WHATWG_FETCH)].

(** [new LodashModuleReplacementPlugin({...})] (lines 214-216). *)
Definition lodashModuleReplacementPlugin : Plugin :=
  LodashModuleReplacementPlugin [("paths", VBool true)].

(** [new webpack.optimize.UglifyJsPlugin({...})] (lines 223-229). *)
Definition uglifyJsPlugin : Plugin :=
  UglifyJsPlugin [("parallel", VBool true);
                  ("sourceMap", VBool true);
                  ("uglifyOptions", VObject [("ecma", number 8)])].

(** The default parameter [env = DEFAULT_ENV] (line 62): the default is
    taken for [undefined], passed or left out, and for nothing else. *)
Definition env_parameter (arg : value) : value :=
  match arg with
  | VUndefined => DEFAULT_ENV
  | _ => arg
  end.

(** ** The exported function (lines 62-258)

    [NODE_ENV] is the module-level constant destructured from [process.env]
    when the module is loaded; [arg] is the argument of the call, with
    [VUndefined] for a call without one.  [env.report] is the one step that can throw; the other entries of the literal are
    constants, so reading it first gives the same completion.  A spread
    [...(c ? [p] : [])] in the array literal is an append. *)
Definition module_exports (NODE_ENV : value) (arg : value) : completion Config :=
  let env := env_parameter arg in
  env_report <- Get env "report" ;;
  Return {|
    context := path_resolve __dirname ".";
    devtool := if strict_equals NODE_ENV PRODUCTION
               then "source-map" else "eval-source-map";
    entry := [path_join __dirname "src/index.js"];
    module_rules := [eslint_rule; babel_rule];
    node := [("child_process", VString "empty");
             ("dgram", VString "empty");
             ("fs", VString "empty");
             ("net", VString "empty");
             ("setImmediate", VBool false);
             ("tls", VString "empty")];
    output := {| filename := "index.js";
                 library := "returnExports";
                 libraryTarget := "umd";
                 path := path_resolve __dirname "dist" |};
    plugins := [environmentPlugin; providePlugin; lodashModuleReplacementPlugin]
               ++ (if strict_equals NODE_ENV PRODUCTION then [uglifyJsPlugin] else [])
               ++ (if ToBoolean env_report then [BundleAnalyzerPlugin] else []);
    resolve := {| alias := [("RootDir", path_resolve __dirname ".");
                            ("src", path_resolve __dirname "src")];
                  extensions := [".js"; ".json"] |}
  |}.

(** ** Arguments in general

    [module_exports] is the function on plain data, as the command line
    gives it.  All the function does with its argument is the read
    [env.report], and an object answers a read through its [[Get]]
    internal method: with an own or an inherited property, with the
    completion of a getter, with that of a proxy trap.  An argument that
    is not plain data is given by this method, the completion of a read
    for each key: a read is taken to complete, with a value or with a
    throw.  A value read from it counts through its truthiness only. *)

Inductive argument : Type :=
| Plain (v : value)
| Custom (get : string -> completion value).

Definition GetV (o : argument) (key : string) : completion value :=
  match o with
  | Plain v => Get v key
  | Custom get => get key
  end.

(** The default parameter [env = DEFAULT_ENV] (line 62). *)
Definition env_parameter_on (arg : argument) : argument :=
  match arg with
  | Plain VUndefined => Plain DEFAULT_ENV
  | _ => arg
  end.

(** The exported function (lines 62-258) on any argument: the object
    literal is the one of [module_exports]. *)
Definition module_exports_on (NODE_ENV : value) (arg : argument)
  : completion Config :=
  let env := env_parameter_on arg in
  env_report <- GetV env "report" ;;
  Return {|
    context := path_resolve __dirname ".";
    devtool := if strict_equals NODE_ENV PRODUCTION
               then "source-map" else "eval-source-map";
    entry := [path_join __dirname "src/index.js"];
    module_rules := [eslint_rule; babel_rule];
    node := [("child_process", VString "empty");
             ("dgram", VString "empty");
             ("fs", VString "empty");
             ("net", VString "empty");
             ("setImmediate", VBool false);
             ("tls", VString "empty")];
    output := {| filename := "index.js";
                 library := "returnExports";
                 libraryTarget := "umd";
                 path := path_resolve __dirname "dist" |};
    plugins := [environmentPlugin; providePlugin; lodashModuleReplacementPlugin]
               ++ (if strict_equals NODE_ENV PRODUCTION then [uglifyJsPlugin] else [])
               ++ (if ToBoolean env_report then [BundleAnalyzerPlugin] else []);
    resolve := {| alias := [("RootDir", path_resolve __dirname ".");
                            ("src", path_resolve __dirname "src")];
                  extensions := [".js"; ".json"] |}
  |}.

(** ** What the environment plugin embeds

    By the comments of lines 194 and 195, the plugin uses the value it is
    constructed with for a key unless the variable of that name is defined
    in [process.env], and the value of the variable when it is.
    [variable] is [process.env[key]], [VUndefined] when unset. *)
Definition embedded (variable : value) (key : string)
                    (defaults : list (string * value)) : option value :=
  match variable with
  | VUndefined => lookup key defaults
  | _ => Some variable
  end.

(** ** The vocabulary of the properties *)

Inductive Mode : Type := Development | Production.

(** The build mode: the outcome of the test [NODE_ENV === PRODUCTION] that
    the configuration makes at lines 84 and 223, and that the disabled
    [mode:] entry of line 93 turns into one of the two mode strings. *)
Definition mode (NODE_ENV : value) : Mode :=
  if strict_equals NODE_ENV PRODUCTION then Production else Development.

Definition mode_string (m : Mode) : string :=
  match m with
  | Production => PRODUCTION
  | Development => DEVELOPMENT
  end.

Inductive Stage : Type := Pre | Normal | Post.

(** webpack's reading of [Rule.enforce]: ['pre'], ['post'], and a normal
    loader when the key is missing. *)
Definition stage (r : Rule) : option Stage :=
  match enforce r with
  | None => Some Normal
  | Some e => if String.eqb e "pre" then Some Pre
              else if String.eqb e "post" then Some Post
              else None
  end.

Definition is_minifier (p : Plugin) : bool :=
  match p with UglifyJsPlugin _ => true | _ => false end.

Definition is_analyzer (p : Plugin) : bool :=
  match p with BundleAnalyzerPlugin => true | _ => false end.

Definition is_lodash_replacement (p : Plugin) : bool :=
  match p with LodashModuleReplacementPlugin _ => true | _ => false end.

Definition is_provide (p : Plugin) : bool :=
  match p with ProvidePlugin _ => true | _ => false end.

Definition is_environment (p : Plugin) : bool :=
  match p with EnvironmentPlugin _ => true | _ => false end.

(** A boolean option of a loader or plugin, as the consumer reads it. *)
Definition flag (key : string) (opts : list (string * value)) : option bool :=
  match lookup key opts with
  | Some (VBool b) => Some b
  | _ => None
  end.

(** The argument object of the first plugin of a class in a plugin list. *)
Definition plugin_argument (class : Plugin -> bool) (ps : list Plugin)
  : option (list (string * value)) :=
  match find class ps with
  | Some (EnvironmentPlugin o) | Some (ProvidePlugin o)
  | Some (LodashModuleReplacementPlugin o) | Some (UglifyJsPlugin o) => Some o
  | Some BundleAnalyzerPlugin | None => None
  end.

Definition is_primitive (v : value) : bool :=
  match v with
  | VUndefined | VNull | VBool _ | VNumber _ | VBigInt _ | VString _
  | VSymbol _ => true
  | VFunction _ | VRegExp _ | VArray _ | VObject _ => false
  end.

(** ** Regular expressions

    The three regular-expression literals of the file (lines 39, 128 and
    148) are made of pattern characters, an escaped dot, one group with an
    alternative, and [$].  Their meaning is that of the ECMAScript
    matchers: a matcher is given the rest of the input and a continuation
    that decides on what the matcher leaves.  The literals set no flag, so
    [$] holds at the end of the input only, and [RegExp.prototype.test]
    tries every start index from 0 to the length of the input.  The
    patterns have ASCII characters only, so reading the input as a string
    of bytes finds the matches that reading it as code units finds. *)

Inductive pattern : Type :=
| Empty
| Char (ch : Ascii.ascii)
| Seq (r1 r2 : pattern)
| Disj (r1 r2 : pattern)
| Group (r : pattern)
| AssertEnd.

Fixpoint matcher (r : pattern) (x : string) (c : string -> bool) : bool :=
  match r with
  | Empty => c x
  | Char ch =>
      match x with
      | String ch' y => if Ascii.eqb ch' ch then c y else false
      | EmptyString => false
      end
  | Seq r1 r2 => matcher r1 x (fun y => matcher r2 y c)
  | Disj r1 r2 => matcher r1 x c || matcher r2 x c
  | Group r1 => matcher r1 x c
  | AssertEnd =>
      match x with
      | EmptyString => c x
      | String _ _ => false
      end
  end.

Fixpoint RegExp_test (r : pattern) (s : string) : bool :=
  matcher r s (fun _ => true)
  || match s with
     | EmptyString => false
     | String _ s' => RegExp_test r s'
     end.

(** The pattern of a run of characters taken literally. *)
Fixpoint word (w : string) : pattern :=
  match w with
  | EmptyString => Empty
  | String ch w' => Seq (Char ch) (word w')
  end.

Definition is_syntax_character (ch : Ascii.ascii) : bool :=
  existsb (Ascii.eqb ch) (list_ascii_of_string "^$\.*+?()[]{}|/").

(** The text of a pattern between the slashes of a literal; syntax
    characters taken literally are escaped. *)
Fixpoint pattern_source (r : pattern) : string :=
  match r with
  | Empty => ""
  | Char ch => if is_syntax_character ch
               then String "\"%char (String ch "") else String ch ""
  | Seq r1 r2 => pattern_source r1 ++ pattern_source r2
  | Disj r1 r2 => pattern_source r1 ++ "|" ++ pattern_source r2
  | Group r1 => "(" ++ pattern_source r1 ++ ")"
  | AssertEnd => "$"
  end.

(** [/node_modules/] (line 39). *)
Definition exclude_pattern : pattern := word "node_modules".

(** [/\.(js|json)$/] (line 128). *)
Definition eslint_test_pattern : pattern :=
  Seq (Char ".") (Seq (Group (Disj (word "js") (word "json"))) AssertEnd).

(** [/\.js$/] (line 148). *)
Definition babel_test_pattern : pattern := Seq (word ".js") AssertEnd.

Fixpoint last_char (s : string) : option Ascii.ascii :=
  match s with
  | EmptyString => None
  | String ch s' =>
      match s' with
      | EmptyString => Some ch
      | String _ _ => last_char s'
      end
  end.

(** * Properties *)

(** ** Helper lemmas *)

Lemma strict_equals_spec (x : value) (s : string) :
  strict_equals x s = true <-> x = VString s.
Proof.
  destruct x; simpl; try (split; [discriminate | intros H; inversion H]).
  rewrite String.eqb_eq. split; intros H.
  - now subst.
  - now inversion H.
Qed.

Lemma mode_cases (NODE_ENV : value) :
  (NODE_ENV = VString PRODUCTION /\ mode NODE_ENV = Production) \/
  (NODE_ENV <> VString PRODUCTION /\ mode NODE_ENV = Development).
Proof.
  unfold mode. destruct (strict_equals NODE_ENV PRODUCTION) eqn:E.
  - left. split; [now apply strict_equals_spec | reflexivity].
  - right. split; [| reflexivity].
    intros H. apply strict_equals_spec in H. congruence.
Qed.

(** Reading [report] off the parameter throws for [null] and for nothing
    else. *)
Lemma Get_env_report (arg : value) :
  arg <> VNull -> exists r, Get (env_parameter arg) "report" = Return r.
Proof.
  intros Hnull. destruct arg; simpl; try (eexists; reflexivity).
  now contradiction Hnull.
Qed.

(** The object a call returns, entry by entry, when [env.report] is [r]. *)
Lemma module_exports_entries (NODE_ENV arg r : value) :
  Get (env_parameter arg) "report" = Return r ->
  exists cfg,
    module_exports NODE_ENV arg = Return cfg /\
    devtool cfg = (if strict_equals NODE_ENV PRODUCTION
                   then "source-map" else "eval-source-map") /\
    module_rules cfg = [eslint_rule; babel_rule] /\
    plugins cfg =
      [environmentPlugin; providePlugin; lodashModuleReplacementPlugin]
      ++ (if strict_equals NODE_ENV PRODUCTION then [uglifyJsPlugin] else [])
      ++ (if ToBoolean r then [BundleAnalyzerPlugin] else []).
Proof.
  intros Hget. unfold module_exports. rewrite Hget. simpl.
  eexists. split; [reflexivity |]. simpl. repeat split.
Qed.

(** The four plugin lists a call can return. *)
Lemma plugins_shape (min ana : bool) :
  [environmentPlugin; providePlugin; lodashModuleReplacementPlugin]
  ++ (if min then [uglifyJsPlugin] else [])
  ++ (if ana then [BundleAnalyzerPlugin] else []) =
  environmentPlugin :: providePlugin :: lodashModuleReplacementPlugin ::
  match min, ana with
  | true, true => [uglifyJsPlugin; BundleAnalyzerPlugin]
  | true, false => [uglifyJsPlugin]
  | false, true => [BundleAnalyzerPlugin]
  | false, false => []
  end.
Proof. now destruct min, ana. Qed.

Lemma existsb_minifier (min ana : bool) :
  existsb is_minifier
    ([environmentPlugin; providePlugin; lodashModuleReplacementPlugin]
     ++ (if min then [uglifyJsPlugin] else [])
     ++ (if ana then [BundleAnalyzerPlugin] else [])) = min.
Proof. now destruct min, ana. Qed.

Lemma existsb_analyzer (min ana : bool) :
  existsb is_analyzer
    ([environmentPlugin; providePlugin; lodashModuleReplacementPlugin]
     ++ (if min then [uglifyJsPlugin] else [])
     ++ (if ana then [BundleAnalyzerPlugin] else [])) = ana.
Proof. now destruct min, ana. Qed.

Lemma mode_production_test (NODE_ENV : value) :
  mode NODE_ENV = Production <-> strict_equals NODE_ENV PRODUCTION = true.
Proof.
  unfold mode. destruct (strict_equals NODE_ENV PRODUCTION); split;
    intros H; try reflexivity; discriminate.
Qed.

(** Strings and matchers. *)

Lemma last_char_append (p : string) (ch : Ascii.ascii) (w : string) :
  last_char (p ++ String ch w) = last_char (String ch w).
Proof.
  induction p as [| a p IH]; [reflexivity |].
  change (String a p ++ String ch w)%string with (String a (p ++ String ch w)).
  destruct (p ++ String ch w)%string eqn:E.
  - destruct p; discriminate E.
  - simpl. simpl in IH. exact IH.
Qed.

Lemma matcher_word (w x : string) (c : string -> bool) :
  matcher (word w) x c = true <-> exists y, x = (w ++ y)%string /\ c y = true.
Proof.
  revert x. induction w as [| a w IH]; intros x; simpl.
  - split.
    + intros H. now exists x.
    + intros (y & -> & H). exact H.
  - destruct x as [| b x].
    + split; [discriminate | intros (y & H & _); discriminate H].
    + destruct (Ascii.eqb_spec b a) as [-> | Hne].
      * rewrite IH. split; intros (y & H & Hc); exists y; split; auto.
        -- now rewrite H.
        -- now inversion H.
      * split; [discriminate |].
        intros (y & H & _). inversion H. now contradiction Hne.
Qed.

Lemma RegExp_test_spec (r : pattern) (s : string) :
  RegExp_test r s = true <->
  exists p x, s = (p ++ x)%string /\ matcher r x (fun _ => true) = true.
Proof.
  induction s as [| a s IH]; simpl; rewrite orb_true_iff.
  - split.
    + intros [H | H]; [| discriminate H]. now exists "", "".
    + intros (p & x & H & Hm). left.
      destruct p; [| discriminate H]. simpl in H. now subst x.
  - rewrite IH. split.
    + intros [H | (p & x & H & Hm)].
      * now exists "", (String a s).
      * exists (String a p), x. split; [now rewrite H | exact Hm].
    + intros (p & x & H & Hm). destruct p as [| b p]; simpl in H.
      * left. now subst x.
      * right. inversion H. now exists p, x.
Qed.

Lemma matcher_babel_test (x : string) :
  matcher babel_test_pattern x (fun _ => true) = true <-> x = ".js".
Proof.
  unfold babel_test_pattern.
  change (matcher (Seq (word ".js") AssertEnd) x (fun _ => true))
    with (matcher (word ".js") x (fun y => matcher AssertEnd y (fun _ => true))).
  rewrite matcher_word. split.
  - intros (y & -> & H). destruct y; [reflexivity | discriminate H].
  - intros ->. now exists "".
Qed.

Lemma matcher_eslint_test (x : string) :
  matcher eslint_test_pattern x (fun _ => true) = true <->
  x = ".js" \/ x = ".json".
Proof.
  unfold eslint_test_pattern.
  destruct x as [| b x]; cbn [matcher].
  - split; [discriminate | intros [H | H]; discriminate H].
  - destruct (Ascii.eqb_spec b ".") as [-> | Hne].
    + rewrite orb_true_iff, !matcher_word. split.
      * intros [(y & -> & H) | (y & -> & H)];
          (destruct y; [| discriminate H]); [now left | now right].
      * intros [H | H]; inversion H; [left | right]; now exists "".
    + split; [discriminate |].
      intros [H | H]; inversion H; now contradiction Hne.
Qed.

Lemma strict_equals_of_mode (N1 N2 : value) :
  mode N1 = mode N2 ->
  strict_equals N1 PRODUCTION = strict_equals N2 PRODUCTION.
Proof.
  unfold mode.
  destruct (strict_equals N1 PRODUCTION), (strict_equals N2 PRODUCTION);
    intros H; try reflexivity; discriminate H.
Qed.

(** The two patterns and the exclusion pattern are the literals of the
    rules. *)
Lemma rule_patterns :
  test eslint_rule = VRegExp (pattern_source eslint_test_pattern) /\
  test babel_rule = VRegExp (pattern_source babel_test_pattern) /\
  exclude eslint_rule = VRegExp (pattern_source exclude_pattern) /\
  exclude babel_rule = VRegExp (pattern_source exclude_pattern).
Proof. repeat split. Qed.

Lemma RegExp_test_exclude (s : string) :
  RegExp_test exclude_pattern s = true <->
  exists p q, s = (p ++ "node_modules" ++ q)%string.
Proof.
  rewrite RegExp_test_spec. unfold exclude_pattern. split.
  - intros (p & x & -> & Hm). apply matcher_word in Hm.
    destruct Hm as (q & -> & _). now exists p, q.
  - intros (p & q & ->). exists p, ("node_modules" ++ q)%string.
    split; [reflexivity |]. apply matcher_word. now exists q.
Qed.

(** On plain data the general function is [module_exports]. *)
Lemma module_exports_on_plain (NODE_ENV v : value) :
  module_exports_on NODE_ENV (Plain v) = module_exports NODE_ENV v.
Proof. now destruct v. Qed.

(** A call completes as the read of [env.report] does. *)
Lemma module_exports_on_read (NODE_ENV : value) (arg : argument) :
  match GetV (env_parameter_on arg) "report" with
  | Return _ => exists cfg, module_exports_on NODE_ENV arg = Return cfg
  | Throw e => module_exports_on NODE_ENV arg = Throw e
  end.
Proof.
  unfold module_exports_on.
  destruct (GetV (env_parameter_on arg) "report") as [r | e]; cbn [bind].
  - eexists. reflexivity.
  - reflexivity.
Qed.

(** ** Mode resolution *)

(** C1: the mode is Production exactly when the mode signal is the string
    ['production'], and Development for every other value of the signal,
    [undefined] (no signal) included; whatever the signal is, the call
    returns a configuration, and that configuration has the production
    source-map setting exactly for the sentinel. *)
Theorem mode_resolution (NODE_ENV : value) :
  (mode NODE_ENV = Production <-> NODE_ENV = VString "production") /\
  (mode NODE_ENV = Development <-> NODE_ENV <> VString "production") /\
  mode VUndefined = Development /\
  exists cfg,
    module_exports NODE_ENV VUndefined = Return cfg /\
    (devtool cfg = "source-map" <-> NODE_ENV = VString "production").
Proof.
  change "production" with PRODUCTION.
  destruct (mode_cases NODE_ENV) as [[Heq Hm] | [Hne Hm]];
    rewrite Hm; (split; [| split; [| split; [reflexivity |]]]).
  - split; auto.
  - split; [discriminate | intros H; now contradiction H].
  - eexists. split; [reflexivity |]. simpl. subst NODE_ENV. simpl. tauto.
  - split; [discriminate | intros H; now contradiction Hne].
  - split; auto.
  - eexists. split; [reflexivity |]. simpl.
    destruct (strict_equals NODE_ENV PRODUCTION) eqn:E.
    + apply strict_equals_spec in E. now contradiction Hne.
    + split; [discriminate | intros H; now contradiction Hne].
Qed.

(** ** Plugin composition *)

(** C2: the returned plugin list has the minifier exactly in Production mode
    and the analyzer exactly when the report flag is set, both for an
    environment object with a boolean [report] and, with the flag read as
    the conditional reads it, for every argument the call accepts; each of
    the four combinations of the two plugins is returned for some input. *)
Theorem conditional_plugins :
  (forall (NODE_ENV : value) (report : bool),
     exists cfg,
       module_exports NODE_ENV (VObject [("report", VBool report)]) = Return cfg /\
       (existsb is_minifier (plugins cfg) = true <-> mode NODE_ENV = Production) /\
       (existsb is_analyzer (plugins cfg) = true <-> report = true)) /\
  (forall NODE_ENV arg : value,
     arg <> VNull ->
     exists cfg r,
       module_exports NODE_ENV arg = Return cfg /\
       Get (env_parameter arg) "report" = Return r /\
       (existsb is_minifier (plugins cfg) = true <-> mode NODE_ENV = Production) /\
       (existsb is_analyzer (plugins cfg) = true <-> ToBoolean r = true)) /\
  (forall min ana : bool,
     exists NODE_ENV arg cfg,
       module_exports NODE_ENV arg = Return cfg /\
       existsb is_minifier (plugins cfg) = min /\
       existsb is_analyzer (plugins cfg) = ana).
Proof.
  assert (General : forall NODE_ENV arg r,
             Get (env_parameter arg) "report" = Return r ->
             exists cfg,
               module_exports NODE_ENV arg = Return cfg /\
               (existsb is_minifier (plugins cfg) = true <->
                mode NODE_ENV = Production) /\
               (existsb is_analyzer (plugins cfg) = true <-> ToBoolean r = true)).
  { intros NODE_ENV arg r Hget.
    destruct (module_exports_entries NODE_ENV arg r Hget)
      as (cfg & Hcfg & _ & _ & Hplugins).
    exists cfg. rewrite Hplugins, existsb_minifier, existsb_analyzer.
    split; [exact Hcfg |]. split; [| tauto].
    symmetry. apply mode_production_test. }
  split; [| split].
  - intros NODE_ENV report.
    apply (General NODE_ENV (VObject [("report", VBool report)]) (VBool report)).
    reflexivity.
  - intros NODE_ENV arg Hnull.
    destruct (Get_env_report arg Hnull) as [r Hget].
    destruct (General NODE_ENV arg r Hget) as (cfg & Hcfg & Hmin & Hana).
    now exists cfg, r.
  - intros min ana.
    exists (if min then VString PRODUCTION else VUndefined).
    exists (VObject [("report", VBool ana)]).
    eexists. split; [reflexivity |]. now destruct min, ana.
Qed.

Lemma conditional_plugins_witness :
  VObject [("report", VNumber S754_nan)] <> VNull /\
  exists cfg r,
    module_exports (VString "production") (VObject [("report", VNumber S754_nan)])
      = Return cfg /\
    Get (env_parameter (VObject [("report", VNumber S754_nan)])) "report" = Return r /\
    (existsb is_minifier (plugins cfg) = true <->
     mode (VString "production") = Production) /\
    (existsb is_analyzer (plugins cfg) = true <-> ToBoolean r = true).
Proof.
  split; [discriminate |].
  apply (proj1 (proj2 conditional_plugins)). discriminate.
Defined.

(** C3: the returned plugin list starts with the environment plugin, the
    provide plugin and the lodash replacement plugin, in this order; what
    follows them is the minifier or the analyzer only, so both sit at
    position 3 or later; and a minifier in the list is always at a smaller
    position than an analyzer in the list. *)
Theorem plugin_order (NODE_ENV arg : value) :
  arg <> VNull ->
  exists cfg,
    module_exports NODE_ENV arg = Return cfg /\
    firstn 3 (plugins cfg) =
      [environmentPlugin; providePlugin; lodashModuleReplacementPlugin] /\
    is_environment environmentPlugin = true /\
    is_provide providePlugin = true /\
    is_lodash_replacement lodashModuleReplacementPlugin = true /\
    Forall (fun p => is_minifier p || is_analyzer p = true)
           (skipn 3 (plugins cfg)) /\
    (forall i p, nth_error (plugins cfg) i = Some p ->
                 is_minifier p || is_analyzer p = true -> 3 <= i) /\
    (forall i j p q,
        nth_error (plugins cfg) i = Some p -> is_minifier p = true ->
        nth_error (plugins cfg) j = Some q -> is_analyzer q = true ->
        i < j).
Proof.
  intros Hnull.
  destruct (Get_env_report arg Hnull) as [r Hget].
  destruct (module_exports_entries NODE_ENV arg r Hget)
    as (cfg & Hcfg & _ & _ & Hplugins).
  exists cfg. rewrite Hplugins, plugins_shape.
  split; [exact Hcfg |].
  repeat (split; [reflexivity |]).
  split; [| split].
  - destruct (strict_equals NODE_ENV PRODUCTION), (ToBoolean r); simpl;
      repeat constructor.
  - intros i p Hi Hp.
    destruct i as [| [| [| i]]]; simpl in Hi; try lia;
      inversion Hi; subst p; discriminate Hp.
  - intros i j p q Hi Hp Hj Hq.
    destruct (strict_equals NODE_ENV PRODUCTION), (ToBoolean r);
      destruct i as [| [| [| [| [| i]]]]]; simpl in Hi;
      try discriminate Hi;
      try (inversion Hi; subst p; discriminate Hp);
      try (destruct i; discriminate Hi);
      destruct j as [| [| [| [| [| j]]]]]; simpl in Hj;
      try discriminate Hj;
      try (inversion Hj; subst q; discriminate Hq);
      try (destruct j; discriminate Hj);
      lia.
Qed.

Lemma plugin_order_witness :
  VObject [("report", VBool true)] <> VNull /\
  exists cfg,
    module_exports (VString "production") (VObject [("report", VBool true)])
      = Return cfg /\
    plugins cfg = [environmentPlugin; providePlugin;
                   lodashModuleReplacementPlugin;
                   uglifyJsPlugin; BundleAnalyzerPlugin] /\
    3 < 4.
Proof.
  split; [discriminate |].
  destruct (plugin_order (VString "production")
              (VObject [("report", VBool true)]))
    as (cfg & Hcfg & _ & _ & _ & _ & _ & _ & Hlt); [discriminate |].
  exists cfg. split; [exact Hcfg |].
  inversion Hcfg; subst cfg. split; [reflexivity |].
  apply (Hlt 3 4 uglifyJsPlugin BundleAnalyzerPlugin); reflexivity.
Defined.

(** ** Rules *)

(** C4: every call that returns gives the same two rules: the eslint rule
    at position 0, enforced ['pre'], failing the build on lint errors and
    not on lint warnings, which it keeps quiet, and the babel rule at
    position 1, a normal loader; both exclude by the one pattern
    [/node_modules/].  The two rules are the literals of lines 116-129 and
    136-149, entry by entry. *)
Theorem rule_set (NODE_ENV arg : value) :
  arg <> VNull ->
  exists cfg,
    module_exports NODE_ENV arg = Return cfg /\
    module_rules cfg = [eslint_rule; babel_rule] /\
    length (module_rules cfg) = 2 /\
    nth_error (module_rules cfg) 0 = Some eslint_rule /\
    nth_error (module_rules cfg) 1 = Some babel_rule /\
    loader eslint_rule = "eslint-loader" /\
    enforce eslint_rule = Some "pre" /\
    stage eslint_rule = Some Pre /\
    flag "failOnError" (options eslint_rule) = Some true /\
    flag "emitError" (options eslint_rule) = Some true /\
    flag "failOnWarning" (options eslint_rule) = Some false /\
    flag "emitWarning" (options eslint_rule) = Some false /\
    loader babel_rule = "babel-loader" /\
    enforce babel_rule = None /\
    stage babel_rule = Some Normal /\
    exclude eslint_rule = DEFAULT_EXCLUDE_RX /\
    exclude babel_rule = exclude eslint_rule /\
    exclude eslint_rule = VRegExp "node_modules" /\
    exclude babel_rule = VRegExp "node_modules" /\
    flag "quiet" (options eslint_rule) = Some true /\
    test eslint_rule = VRegExp "\.(js|json)$" /\
    test babel_rule = VRegExp "\.js$" /\
    module_rules cfg =
      [ {| enforce := Some "pre";
           exclude := VRegExp "node_modules";
           loader := "eslint-loader";
           options := [("emitError", VBool true);
                       ("emitWarning", VBool false);
                       ("failOnError", VBool true);
                       ("failOnWarning", VBool false);
                       ("formatter", VFunction "eslint-friendly-formatter");
                       ("quiet", VBool true)];
           test := VRegExp "\.(js|json)$" |};
        {| enforce := None;
           exclude := VRegExp "node_modules";
           loader := "babel-loader";
           options := [("plugins", VArray [VString "lodash"]);
                       ("presets",
                        VArray [VArray [VString "env";
                                        VObject [("modules", VBool false);
                                                 ("targets",
                                                  VObject [("node", number 8)])]]])];
           test := VRegExp "\.js$" |} ] /\
    (forall s : string,
       RegExp_test exclude_pattern s = true <->
       exists p q, s = (p ++ "node_modules" ++ q)%string) /\
    exclude eslint_rule = VRegExp (pattern_source exclude_pattern).
Proof.
  intros Hnull.
  destruct (Get_env_report arg Hnull) as [r Hget].
  destruct (module_exports_entries NODE_ENV arg r Hget)
    as (cfg & Hcfg & _ & Hrules & _).
  exists cfg. rewrite Hrules. split; [exact Hcfg |].
  repeat (split; [reflexivity |]).
  split; [exact RegExp_test_exclude | reflexivity].
Qed.

Lemma rule_set_witness :
  VString "x" <> VNull /\
  exists cfg,
    module_exports (VString "staging") (VString "x") = Return cfg /\
    module_rules cfg = [eslint_rule; babel_rule].
Proof.
  split; [discriminate |].
  destruct (rule_set (VString "staging") (VString "x"))
    as (cfg & Hcfg & Hrules & _); [discriminate |].
  exists cfg. now split.
Defined.

(** ** Source maps *)

(** C5: the [devtool] of the returned configuration is decided by the mode
    alone: ['source-map'] in Production, ['eval-source-map'] in
    Development. *)
Theorem devtool_by_mode (NODE_ENV arg : value) :
  arg <> VNull ->
  exists cfg,
    module_exports NODE_ENV arg = Return cfg /\
    devtool cfg = match mode NODE_ENV with
                  | Production => "source-map"
                  | Development => "eval-source-map"
                  end.
Proof.
  intros Hnull.
  destruct (Get_env_report arg Hnull) as [r Hget].
  destruct (module_exports_entries NODE_ENV arg r Hget)
    as (cfg & Hcfg & Hdevtool & _).
  exists cfg. split; [exact Hcfg |].
  rewrite Hdevtool. unfold mode.
  now destruct (strict_equals NODE_ENV PRODUCTION).
Qed.

Lemma devtool_by_mode_witness :
  VUndefined <> VNull /\
  exists cfg,
    module_exports (VString "production") VUndefined = Return cfg /\
    devtool cfg = "source-map".
Proof.
  split; [discriminate |].
  apply (devtool_by_mode (VString "production") VUndefined). discriminate.
Defined.

(** ** Totality *)

(** C6, as the claim states it, fails: a call with [null] throws a
    TypeError at [env.report], whatever the mode signal is. *)
Lemma assembly_throws_on_null :
  module_exports VUndefined VNull = Throw TypeError /\
  ~ (forall NODE_ENV arg : value,
       exists cfg, module_exports NODE_ENV arg = Return cfg).
Proof.
  split; [reflexivity |].
  intros H. destruct (H VUndefined VNull) as [cfg Hcfg]. discriminate Hcfg.
Qed.

(** C6, amended: a call returns a configuration exactly when the read of
    [env.report] returns.  It does for no argument and for [undefined],
    where the default object is read, for every other primitive but
    [null], and for every object whose [report], own or inherited, is read
    without a throw; when the read throws, as it does for [null] and for
    an object whose getter throws, the call throws what the read throws. *)
Theorem assembly_returns_as_read_returns (NODE_ENV : value) (arg : argument) :
  ((exists cfg, module_exports_on NODE_ENV arg = Return cfg) <->
   (exists r, GetV (env_parameter_on arg) "report" = Return r)) /\
  (arg = Plain VUndefined ->
   exists cfg, module_exports_on NODE_ENV arg = Return cfg) /\
  (forall v, arg = Plain v -> v <> VNull ->
             exists cfg, module_exports_on NODE_ENV arg = Return cfg /\
                         module_exports NODE_ENV v = Return cfg) /\
  (forall get r, arg = Custom get -> get "report" = Return r ->
                 exists cfg, module_exports_on NODE_ENV arg = Return cfg) /\
  (forall e, GetV (env_parameter_on arg) "report" = Throw e ->
             module_exports_on NODE_ENV arg = Throw e).
Proof.
  pose proof (module_exports_on_read NODE_ENV arg) as Hread.
  split; [| split; [| split; [| split]]].
  - destruct (GetV (env_parameter_on arg) "report") as [r | e].
    + split; [intros _; now exists r | intros _; exact Hread].
    + rewrite Hread. split; intros [x Hx]; discriminate Hx.
  - intros ->. eexists. reflexivity.
  - intros v -> Hnull. rewrite module_exports_on_plain.
    destruct (Get_env_report v Hnull) as [r Hget].
    destruct (module_exports_entries NODE_ENV v r Hget) as (cfg & Hcfg & _).
    exists cfg. now split.
  - intros get r -> Hget. simpl in Hread. now rewrite Hget in Hread.
  - intros e He. now rewrite He in Hread.
Qed.

Lemma assembly_returns_as_read_returns_witness :
  (exists cfg,
      module_exports_on VUndefined
        (Custom (fun key => if String.eqb key "report"
                            then Return (VBool true) else Return VUndefined))
      = Return cfg) /\
  module_exports_on VUndefined
    (Custom (fun _ => Throw (Thrown (VString "RangeError")))) =
  Throw (Thrown (VString "RangeError")) /\
  exists cfg, module_exports_on VUndefined (Plain (VNumber S754_nan)) = Return cfg /\
              module_exports VUndefined (VNumber S754_nan) = Return cfg.
Proof.
  split; [| split].
  - apply (proj1 (proj2 (proj2 (proj2
             (assembly_returns_as_read_returns VUndefined
                (Custom (fun key => if String.eqb key "report"
                                    then Return (VBool true)
                                    else Return VUndefined))))))
             _ (VBool true) eq_refl eq_refl).
  - apply (proj2 (proj2 (proj2 (proj2
             (assembly_returns_as_read_returns VUndefined
                (Custom (fun _ => Throw (Thrown (VString "RangeError")))))))));
      reflexivity.
  - apply (proj1 (proj2 (proj2
             (assembly_returns_as_read_returns VUndefined
                (Plain (VNumber S754_nan)))))
             (VNumber S754_nan) eq_refl); discriminate.
Defined.

(** ** The report flag *)

(** C7, as the claim states it, fails: with [report: 1] the value of
    [env.report] is not the boolean [true], and the analyzer is in the
    returned plugin list. *)
Lemma report_number_includes_analyzer :
  Get (env_parameter (VObject [("report", number 1)])) "report"
    = Return (number 1) /\
  number 1 <> VBool true /\
  exists cfg,
    module_exports VUndefined (VObject [("report", number 1)]) = Return cfg /\
    existsb is_analyzer (plugins cfg) = true.
Proof.
  split; [reflexivity |]. split; [discriminate |].
  eexists. split; reflexivity.
Qed.

(** C7, amended: for every argument other than [null], the analyzer is in
    the returned plugin list exactly when the value of [env.report] is
    truthy.  It is in the list for the boolean [true]; it is not for
    [false], for a missing [report] and for the other falsy values, nor
    when the argument is left out, where [env.report] is the [false] of
    the default object. *)
Theorem report_flag_truthiness (NODE_ENV arg : value) :
  arg <> VNull ->
  exists cfg r,
    module_exports NODE_ENV arg = Return cfg /\
    Get (env_parameter arg) "report" = Return r /\
    (existsb is_analyzer (plugins cfg) = true <-> ToBoolean r = true) /\
    (r = VBool true -> existsb is_analyzer (plugins cfg) = true) /\
    (r = VBool false \/ r = VUndefined \/ r = VNull \/ r = VString "" \/
     r = VNumber (S754_zero false) \/ r = VNumber (S754_zero true) \/
     r = VNumber S754_nan \/ r = VBigInt 0 ->
     existsb is_analyzer (plugins cfg) = false) /\
    (arg = VUndefined -> r = VBool false) /\
    (forall props, arg = VObject props -> lookup "report" props = None ->
                   r = VUndefined).
Proof.
  intros Hnull.
  destruct (Get_env_report arg Hnull) as [r Hget].
  destruct (module_exports_entries NODE_ENV arg r Hget)
    as (cfg & Hcfg & _ & _ & Hplugins).
  exists cfg, r. rewrite Hplugins, existsb_analyzer.
  split; [exact Hcfg |]. split; [exact Hget |]. split; [tauto |].
  split; [| split; [| split]].
  - now intros ->.
  - intros H. repeat (destruct H as [-> | H]; [reflexivity |]). now subst r.
  - intros ->. simpl in Hget. now inversion Hget.
  - intros props -> Hnone. simpl in Hget. rewrite Hnone in Hget.
    now inversion Hget.
Qed.

Lemma report_flag_truthiness_witness :
  VObject [("report", VString "yes")] <> VNull /\
  exists cfg r,
    module_exports VUndefined (VObject [("report", VString "yes")]) = Return cfg /\
    Get (env_parameter (VObject [("report", VString "yes")])) "report" = Return r /\
    (existsb is_analyzer (plugins cfg) = true <-> ToBoolean r = true).
Proof.
  split; [discriminate |].
  destruct (report_flag_truthiness VUndefined (VObject [("report", VString "yes")]))
    as (cfg & r & Hcfg & Hget & Hiff & _); [discriminate |].
  now exists cfg, r.
Defined.

(** ** The unconditional plugins *)

(** C8, as the claim states it, fails: with the mode signal ['staging']
    the mode is Development and its string is ['development'], while the
    environment plugin of the returned configuration embeds the signal
    itself, ['staging'], for [NODE_ENV]. *)
Lemma environment_plugin_embeds_staging :
  mode (VString "staging") = Development /\
  mode_string (mode (VString "staging")) = "development" /\
  exists cfg defaults,
    module_exports (VString "staging") VUndefined = Return cfg /\
    plugin_argument is_environment (plugins cfg) = Some defaults /\
    embedded (VString "staging") "NODE_ENV" defaults
      = Some (VString "staging") /\
    embedded (VString "staging") "NODE_ENV" defaults
      <> Some (VString (mode_string (mode (VString "staging")))).
Proof.
  split; [reflexivity |]. split; [reflexivity |].
  eexists. eexists. split; [reflexivity |]. split; [reflexivity |].
  split; [reflexivity | discriminate].
Qed.

(** C8, amended: for every mode signal and every argument other than
    [null], the environment plugin is the first plugin of the returned
    configuration and is constructed with [DEBUG: false] and
    [NODE_ENV: 'development'].  For [DEBUG] it embeds [false] when the
    variable is unset; for [NODE_ENV] it embeds the mode signal when there
    is one and ['development'] when there is none, which is the string of
    the mode exactly when the signal is unset, ['production'] or
    ['development']. *)
Theorem environment_plugin_embeds (NODE_ENV arg : value) :
  arg <> VNull ->
  exists cfg defaults,
    module_exports NODE_ENV arg = Return cfg /\
    nth_error (plugins cfg) 0 = Some (EnvironmentPlugin defaults) /\
    plugin_argument is_environment (plugins cfg) = Some defaults /\
    defaults = [("DEBUG", VBool false); ("NODE_ENV", VString "development")] /\
    embedded VUndefined "DEBUG" defaults = Some (VBool false) /\
    embedded NODE_ENV "NODE_ENV" defaults =
      Some (match NODE_ENV with
            | VUndefined => VString "development"
            | _ => NODE_ENV
            end) /\
    (embedded NODE_ENV "NODE_ENV" defaults
       = Some (VString (mode_string (mode NODE_ENV)))
     <-> NODE_ENV = VUndefined \/ NODE_ENV = VString "production" \/
         NODE_ENV = VString "development").
Proof.
  intros Hnull.
  destruct (Get_env_report arg Hnull) as [r Hget].
  destruct (module_exports_entries NODE_ENV arg r Hget)
    as (cfg & Hcfg & _ & _ & Hplugins).
  exists cfg. eexists. rewrite Hplugins, plugins_shape.
  split; [exact Hcfg |].
  repeat (split; [reflexivity |]).
  split; [now destruct NODE_ENV |].
  destruct (mode_cases NODE_ENV) as [[-> Hm] | [Hne Hm]].
  - split; [intros _; right; now left | reflexivity].
  - rewrite Hm. unfold embedded. simpl mode_string. split.
    + destruct NODE_ENV; intros H; try discriminate H;
        [now left | inversion H; right; now right].
    + intros [-> | [-> | ->]]; [reflexivity | now contradiction Hne | reflexivity].
Qed.

Lemma environment_plugin_embeds_witness :
  VObject [] <> VNull /\
  exists cfg defaults,
    module_exports (VString "production") (VObject []) = Return cfg /\
    nth_error (plugins cfg) 0 = Some (EnvironmentPlugin defaults) /\
    embedded (VString "production") "NODE_ENV" defaults
      = Some (VString "production").
Proof.
  split; [discriminate |].
  destruct (environment_plugin_embeds (VString "production") (VObject []))
    as (cfg & defaults & Hcfg & Hfirst & _ & _ & _ & Hembedded & _);
    [discriminate |].
  now exists cfg, defaults.
Defined.

(** C9: for every mode signal and every argument other than [null], the
    lodash replacement plugin is in the returned plugin list, once, at
    position 2, and its argument has [paths] set to [true]. *)
Theorem lodash_plugin_paths (NODE_ENV arg : value) :
  arg <> VNull ->
  exists cfg opts,
    module_exports NODE_ENV arg = Return cfg /\
    nth_error (plugins cfg) 2 = Some (LodashModuleReplacementPlugin opts) /\
    In (LodashModuleReplacementPlugin opts) (plugins cfg) /\
    length (filter is_lodash_replacement (plugins cfg)) = 1 /\
    plugin_argument is_lodash_replacement (plugins cfg) = Some opts /\
    opts = [("paths", VBool true)] /\
    flag "paths" opts = Some true.
Proof.
  intros Hnull.
  destruct (Get_env_report arg Hnull) as [r Hget].
  destruct (module_exports_entries NODE_ENV arg r Hget)
    as (cfg & Hcfg & _ & _ & Hplugins).
  exists cfg. eexists. rewrite Hplugins, plugins_shape.
  split; [exact Hcfg |]. split; [reflexivity |].
  split; [simpl; tauto |].
  split; [| repeat split].
  now destruct (strict_equals NODE_ENV PRODUCTION), (ToBoolean r).
Qed.

Lemma lodash_plugin_paths_witness :
  VBool true <> VNull /\
  exists cfg opts,
    module_exports VUndefined (VBool true) = Return cfg /\
    nth_error (plugins cfg) 2 = Some (LodashModuleReplacementPlugin opts) /\
    flag "paths" opts = Some true.
Proof.
  split; [discriminate |].
  destruct (lodash_plugin_paths VUndefined (VBool true))
    as (cfg & opts & Hcfg & Hnth & _ & _ & _ & _ & Hflag); [discriminate |].
  now exists cfg, opts.
Defined.

(** C10: for every mode signal and every argument other than [null], the
    provide plugin is in the returned plugin list, once, at position 1; its
    argument has two keys, [fetch] and [window.fetch], and both map to
    the string [WHATWG_FETCH]. *)
Theorem provide_plugin_fetch (NODE_ENV arg : value) :
  arg <> VNull ->
  exists cfg defs,
    module_exports NODE_ENV arg = Return cfg /\
    nth_error (plugins cfg) 1 = Some (ProvidePlugin defs) /\
    In (ProvidePlugin defs) (plugins cfg) /\
    length (filter is_provide (plugins cfg)) = 1 /\
    plugin_argument is_provide (plugins cfg) = Some defs /\
    map fst defs = ["fetch"; "window.fetch"] /\
    lookup "fetch" defs = Some (VString WHATWG_FETCH) /\
    lookup "window.fetch" defs = Some (VString WHATWG_FETCH) /\
    (forall k v, In (k, v) defs -> v = VString WHATWG_FETCH) /\
    WHATWG_FETCH =
      "imports-loader?this=>global!exports-loader?global.fetch!whatwg-fetch".
Proof.
  intros Hnull.
  destruct (Get_env_report arg Hnull) as [r Hget].
  destruct (module_exports_entries NODE_ENV arg r Hget)
    as (cfg & Hcfg & _ & _ & Hplugins).
  exists cfg. eexists. rewrite Hplugins, plugins_shape.
  split; [exact Hcfg |]. split; [reflexivity |].
  split; [simpl; tauto |].
  split; [now destruct (strict_equals NODE_ENV PRODUCTION), (ToBoolean r) |].
  repeat (split; [reflexivity |]).
  split; [| reflexivity].
  intros k v [H | [H | []]]; now inversion H.
Qed.

Lemma provide_plugin_fetch_witness :
  VObject [("report", VBool false)] <> VNull /\
  exists cfg defs,
    module_exports (VString "test") (VObject [("report", VBool false)])
      = Return cfg /\
    nth_error (plugins cfg) 1 = Some (ProvidePlugin defs) /\
    map fst defs = ["fetch"; "window.fetch"].
Proof.
  split; [discriminate |].
  destruct (provide_plugin_fetch (VString "test")
              (VObject [("report", VBool false)]))
    as (cfg & defs & Hcfg & Hnth & _ & _ & _ & Hkeys & _); [discriminate |].
  now exists cfg, defs.
Defined.

(** * Further properties of the configuration *)

(** ** What the configuration depends on *)

(** X1: the returned plugin list has the three fixed plugins, one more in
    Production mode and one more when [env.report] is truthy: three to
    five plugins. *)
Theorem plugin_count (NODE_ENV arg : value) :
  arg <> VNull ->
  exists cfg r,
    module_exports NODE_ENV arg = Return cfg /\
    Get (env_parameter arg) "report" = Return r /\
    length (plugins cfg) =
      3 + (match mode NODE_ENV with Production => 1 | Development => 0 end)
        + (if ToBoolean r then 1 else 0) /\
    3 <= length (plugins cfg) <= 5.
Proof.
  intros Hnull.
  destruct (Get_env_report arg Hnull) as [r Hget].
  destruct (module_exports_entries NODE_ENV arg r Hget)
    as (cfg & Hcfg & _ & _ & Hplugins).
  exists cfg, r. split; [exact Hcfg |]. split; [exact Hget |].
  rewrite Hplugins, !length_app. unfold mode.
  destruct (strict_equals NODE_ENV PRODUCTION), (ToBoolean r); simpl; lia.
Qed.

Lemma plugin_count_witness :
  VObject [("report", VString "")] <> VNull /\
  exists cfg r,
    module_exports (VString "production") (VObject [("report", VString "")])
      = Return cfg /\
    Get (env_parameter (VObject [("report", VString "")])) "report" = Return r /\
    length (plugins cfg) = 4.
Proof.
  split; [discriminate |].
  destruct (plugin_count (VString "production")
              (VObject [("report", VString "")]))
    as (cfg & r & Hcfg & Hget & Hlen & _); [discriminate |].
  exists cfg, r. split; [exact Hcfg |]. split; [exact Hget |].
  rewrite Hlen. simpl in Hget. inversion Hget. reflexivity.
Defined.

(** X2: the result of a call is decided by the mode and by the truthiness
    of [env.report]: two calls with the same mode and equally truthy
    [report] values return the same configuration, whatever else the mode
    signals and the arguments are. *)
Theorem config_decided_by_mode_and_flag (N1 N2 a1 a2 r1 r2 : value) :
  Get (env_parameter a1) "report" = Return r1 ->
  Get (env_parameter a2) "report" = Return r2 ->
  mode N1 = mode N2 ->
  ToBoolean r1 = ToBoolean r2 ->
  module_exports N1 a1 = module_exports N2 a2.
Proof.
  intros H1 H2 Hmode Htruthy.
  unfold module_exports. rewrite H1, H2. cbn [bind].
  rewrite (strict_equals_of_mode N1 N2 Hmode), Htruthy. reflexivity.
Qed.

Lemma config_decided_by_mode_and_flag_witness :
  module_exports (VString "staging")
    (VObject [("watch", VBool true); ("report", number 1)]) =
  module_exports VUndefined (VObject [("report", VString "yes")]).
Proof.
  apply (config_decided_by_mode_and_flag
           (VString "staging") VUndefined
           (VObject [("watch", VBool true); ("report", number 1)])
           (VObject [("report", VString "yes")])
           (number 1) (VString "yes")); reflexivity.
Defined.

(** X3: two calls that return agree on every entry but [devtool] and
    [plugins]: context, entry, rules, node, output and resolve are read
    from neither the mode signal nor the argument. *)
Theorem fixed_entries (N1 N2 a1 a2 : value) (c1 c2 : Config) :
  module_exports N1 a1 = Return c1 ->
  module_exports N2 a2 = Return c2 ->
  context c1 = context c2 /\
  entry c1 = entry c2 /\
  module_rules c1 = module_rules c2 /\
  node c1 = node c2 /\
  output c1 = output c2 /\
  resolve c1 = resolve c2.
Proof.
  unfold module_exports. intros H1 H2.
  destruct (Get (env_parameter a1) "report") as [r1 |]; [| discriminate H1].
  destruct (Get (env_parameter a2) "report") as [r2 |]; [| discriminate H2].
  cbn [bind] in H1, H2. inversion H1. inversion H2. repeat split.
Qed.

Lemma fixed_entries_witness :
  exists c1 c2,
    module_exports (VString "production") (VObject [("report", VBool true)])
      = Return c1 /\
    module_exports VUndefined VUndefined = Return c2 /\
    output c1 = output c2 /\ resolve c1 = resolve c2.
Proof.
  eexists. eexists. split; [reflexivity |]. split; [reflexivity |].
  destruct (fixed_entries (VString "production") VUndefined
              (VObject [("report", VBool true)]) VUndefined _ _
              eq_refl eq_refl) as (_ & _ & _ & _ & Hout & Hres).
  now split.
Defined.

(** X4: the minifier and the full source map go together: the returned
    plugin list has the minifier exactly when [devtool] is ['source-map'],
    and a minifier in the list has [sourceMap] set. *)
Theorem minifier_with_source_map (NODE_ENV arg : value) :
  arg <> VNull ->
  exists cfg,
    module_exports NODE_ENV arg = Return cfg /\
    (existsb is_minifier (plugins cfg) = true <-> devtool cfg = "source-map") /\
    (forall opts, In (UglifyJsPlugin opts) (plugins cfg) ->
                  flag "sourceMap" opts = Some true /\
                  devtool cfg = "source-map").
Proof.
  intros Hnull.
  destruct (Get_env_report arg Hnull) as [r Hget].
  destruct (module_exports_entries NODE_ENV arg r Hget)
    as (cfg & Hcfg & Hdevtool & _ & Hplugins).
  exists cfg. split; [exact Hcfg |].
  rewrite Hplugins, existsb_minifier, Hdevtool, plugins_shape.
  destruct (strict_equals NODE_ENV PRODUCTION), (ToBoolean r);
    (split; [split; intros H; try reflexivity; discriminate H |]);
    intros opts Hin; simpl in Hin;
    repeat (destruct Hin as [Hin | Hin]; try discriminate Hin);
    try contradiction;
    inversion Hin; now split.
Qed.

Lemma minifier_with_source_map_witness :
  VUndefined <> VNull /\
  exists cfg,
    module_exports (VString "production") VUndefined = Return cfg /\
    (existsb is_minifier (plugins cfg) = true <-> devtool cfg = "source-map").
Proof.
  split; [discriminate |].
  destruct (minifier_with_source_map (VString "production") VUndefined)
    as (cfg & Hcfg & Hiff & _); [discriminate |].
  now exists cfg.
Defined.

(** X5: an argument whose [report] reads as [undefined] is as good as
    none: the call returns what a call without an argument returns.  This
    is so for every primitive other than [null] (the string of
    [--env production], say) and for a plain object without the key; the
    argument does not select the mode.  An object that inherits a truthy
    [report] is not such an argument: it gets the analyzer. *)
Theorem argument_without_report (NODE_ENV : value) (arg : argument) :
  (GetV (env_parameter_on arg) "report" = Return VUndefined ->
   module_exports_on NODE_ENV arg = module_exports_on NODE_ENV (Plain VUndefined)) /\
  (forall v, arg = Plain v -> is_primitive v = true -> v <> VNull ->
             module_exports_on NODE_ENV arg =
             module_exports_on NODE_ENV (Plain VUndefined)) /\
  (forall props, arg = Plain (VObject props) -> lookup "report" props = None ->
                 module_exports_on NODE_ENV arg =
                 module_exports_on NODE_ENV (Plain VUndefined)) /\
  (forall get r, arg = Custom get -> get "report" = Return r ->
                 ToBoolean r = true ->
                 exists cfg, module_exports_on NODE_ENV arg = Return cfg /\
                             existsb is_analyzer (plugins cfg) = true).
Proof.
  assert (Hundefined :
            GetV (env_parameter_on arg) "report" = Return VUndefined ->
            module_exports_on NODE_ENV arg =
            module_exports_on NODE_ENV (Plain VUndefined)).
  { intros Hget. unfold module_exports_on at 1. rewrite Hget. reflexivity. }
  split; [exact Hundefined |]. split; [| split].
  - intros v -> Hprim Hnull.
    destruct v; try discriminate Hprim; try reflexivity.
    now contradiction Hnull.
  - intros props -> Hnone. apply Hundefined. simpl. now rewrite Hnone.
  - intros get r -> Hget Htruthy. unfold module_exports_on. simpl.
    rewrite Hget. cbn [bind]. eexists. split; [reflexivity |].
    simpl. rewrite Htruthy.
    now destruct (strict_equals NODE_ENV PRODUCTION).
Qed.

Lemma argument_without_report_witness :
  module_exports_on VUndefined (Plain (VString "production")) =
  module_exports_on VUndefined (Plain VUndefined) /\
  exists cfg,
    module_exports_on VUndefined
      (Custom (fun key => if String.eqb key "report"
                          then Return (VBool true) else Return VUndefined))
    = Return cfg /\
    existsb is_analyzer (plugins cfg) = true.
Proof.
  split.
  - apply (proj1 (proj2 (argument_without_report VUndefined
                           (Plain (VString "production"))))
             (VString "production") eq_refl eq_refl).
    discriminate.
  - apply (proj2 (proj2 (proj2 (argument_without_report VUndefined
             (Custom (fun key => if String.eqb key "report"
                                 then Return (VBool true)
                                 else Return VUndefined)))))
             _ (VBool true) eq_refl eq_refl eq_refl).
Defined.

(** X6: with [NODE_ENV] unset, the configuration is the one that the
    default of the environment plugin stands for: setting [NODE_ENV] to
    the value the plugin carries under [NODE_ENV] returns the same
    configuration. *)
Theorem unset_mode_is_plugin_default
  (arg : value) (cfg : Config) (defaults : list (string * value)) (v : value) :
  module_exports VUndefined arg = Return cfg ->
  plugin_argument is_environment (plugins cfg) = Some defaults ->
  lookup "NODE_ENV" defaults = Some v ->
  module_exports v arg = Return cfg.
Proof.
  unfold module_exports. intros Hcfg Hargument Hv.
  destruct (Get (env_parameter arg) "report") as [r |]; [| discriminate Hcfg].
  cbn [bind] in Hcfg |- *. inversion Hcfg as [Hrecord].
  rewrite <- Hrecord in Hargument. simpl in Hargument.
  inversion Hargument as [Hdefaults]. rewrite <- Hdefaults in Hv.
  simpl in Hv. inversion Hv. reflexivity.
Qed.

Lemma unset_mode_is_plugin_default_witness :
  exists cfg,
    module_exports VUndefined (VObject [("report", VBool true)]) = Return cfg /\
    module_exports (VString "development") (VObject [("report", VBool true)])
      = Return cfg.
Proof.
  eexists. split; [reflexivity |].
  apply (unset_mode_is_plugin_default (VObject [("report", VBool true)]) _
           [("DEBUG", VBool false); ("NODE_ENV", VString "development")]
           (VString "development")); reflexivity.
Defined.

(** X7: a call throws exactly when the read of [env.report] throws, and
    throws the same error: on plain data this is the TypeError of a read
    on [null] and nothing else; for an object with a getter or a trap it
    is what the getter or the trap throws.  The mode signal has no part in
    it. *)
Theorem throws_as_read_throws (NODE_ENV : value) (arg : argument) (e : Error) :
  (module_exports_on NODE_ENV arg = Throw e <->
   GetV (env_parameter_on arg) "report" = Throw e) /\
  (forall v, arg = Plain v ->
             (module_exports_on NODE_ENV arg = Throw e <->
              v = VNull /\ e = TypeError)) /\
  (forall get, arg = Custom get ->
               (module_exports_on NODE_ENV arg = Throw e <->
                get "report" = Throw e)) /\
  (forall N, module_exports_on N arg = Throw e <->
             module_exports_on NODE_ENV arg = Throw e).
Proof.
  assert (Hread : forall N,
             module_exports_on N arg = Throw e <->
             GetV (env_parameter_on arg) "report" = Throw e).
  { intros N. pose proof (module_exports_on_read N arg) as H.
    destruct (GetV (env_parameter_on arg) "report") as [r | e'].
    - destruct H as [cfg Hcfg]. rewrite Hcfg.
      split; intros H; discriminate H.
    - rewrite H. split; intros H'; inversion H'; reflexivity. }
  split; [apply Hread |]. split; [| split].
  - intros v ->. rewrite Hread. split.
    + destruct v; simpl; intros H; try discriminate H.
      inversion H. now split.
    + intros [-> ->]. reflexivity.
  - intros get ->. rewrite Hread. reflexivity.
  - intros N. now rewrite !Hread.
Qed.

Lemma throws_as_read_throws_witness :
  module_exports_on (VString "production")
    (Custom (fun _ => Throw (Thrown (VString "RangeError")))) =
  Throw (Thrown (VString "RangeError")) /\
  module_exports_on VUndefined (Plain VNull) = Throw TypeError.
Proof.
  split.
  - apply (proj1 (throws_as_read_throws (VString "production")
                    (Custom (fun _ => Throw (Thrown (VString "RangeError"))))
                    (Thrown (VString "RangeError")))).
    reflexivity.
  - apply (proj1 (proj2 (throws_as_read_throws VUndefined (Plain VNull)
                           TypeError)) VNull eq_refl).
    now split.
Defined.

(** ** Which files the rules select *)

Lemma RegExp_test_babel (s : string) :
  RegExp_test babel_test_pattern s = true <-> exists p, s = (p ++ ".js")%string.
Proof.
  rewrite RegExp_test_spec. split.
  - intros (p & x & -> & Hm). apply matcher_babel_test in Hm. subst x.
    now exists p.
  - intros (p & ->). exists p, ".js". split; [reflexivity |].
    now apply matcher_babel_test.
Qed.

Lemma RegExp_test_eslint (s : string) :
  RegExp_test eslint_test_pattern s = true <->
  exists p, s = (p ++ ".js")%string \/ s = (p ++ ".json")%string.
Proof.
  rewrite RegExp_test_spec. split.
  - intros (p & x & -> & Hm). apply matcher_eslint_test in Hm.
    exists p. destruct Hm as [-> | ->]; [now left | now right].
  - intros (p & [-> | ->]); [exists p, ".js" | exists p, ".json"];
      (split; [reflexivity |]); apply matcher_eslint_test; [now left | now right].
Qed.

(** X8: the babel rule tests for the names that end in [.js], the dot
    included and in lower case; it selects no other name. *)
Theorem babel_test_selects_js :
  test babel_rule = VRegExp (pattern_source babel_test_pattern) /\
  forall s : string,
    RegExp_test babel_test_pattern s = true <->
    exists p, s = (p ++ ".js")%string.
Proof.
  split; [apply rule_patterns | exact RegExp_test_babel].
Qed.

(** X9: every name the babel rule tests positive is also tested positive
    by the eslint rule, which runs first: no file is transpiled without
    being linted. *)
Theorem transpiled_files_are_linted (s : string) :
  RegExp_test babel_test_pattern s = true ->
  RegExp_test eslint_test_pattern s = true.
Proof.
  rewrite RegExp_test_babel, RegExp_test_eslint.
  intros (p & ->). exists p. now left.
Qed.

Lemma transpiled_files_are_linted_witness :
  RegExp_test babel_test_pattern "src/index.js" = true /\
  RegExp_test eslint_test_pattern "src/index.js" = true.
Proof.
  split; [reflexivity |].
  apply (transpiled_files_are_linted "src/index.js"). reflexivity.
Defined.

(** X10: a name that ends in [.json] is linted and is not given to babel. *)
Theorem json_linted_not_transpiled (p : string) :
  RegExp_test eslint_test_pattern (p ++ ".json") = true /\
  RegExp_test babel_test_pattern (p ++ ".json") = false.
Proof.
  split.
  - apply RegExp_test_eslint. exists p. now right.
  - destruct (RegExp_test babel_test_pattern (p ++ ".json")) eqn:E;
      [| reflexivity].
    apply RegExp_test_babel in E. destruct E as [q E].
    apply (f_equal last_char) in E.
    rewrite !last_char_append in E. discriminate E.
Qed.

(** X11: the names the eslint rule tests positive are the names that end
    in one of the extensions of [resolve.extensions] of the returned
    configuration. *)
Theorem lint_test_is_resolve_extensions (NODE_ENV arg : value) :
  arg <> VNull ->
  exists cfg,
    module_exports NODE_ENV arg = Return cfg /\
    nth_error (module_rules cfg) 0 = Some eslint_rule /\
    test eslint_rule = VRegExp (pattern_source eslint_test_pattern) /\
    forall s : string,
      RegExp_test eslint_test_pattern s = true <->
      exists e p, In e (extensions (resolve cfg)) /\ s = (p ++ e)%string.
Proof.
  intros Hnull.
  destruct (Get_env_report arg Hnull) as [r Hget].
  unfold module_exports. rewrite Hget. cbn [bind].
  eexists. split; [reflexivity |]. split; [reflexivity |].
  split; [apply rule_patterns |].
  intros s. rewrite RegExp_test_eslint. cbn [resolve extensions]. split.
  - intros (p & [-> | ->]); [exists ".js", p | exists ".json", p];
      (split; [simpl; tauto | reflexivity]).
  - intros (e & p & [<- | [<- | []]] & ->); exists p; [now left | now right].
Qed.

Lemma lint_test_is_resolve_extensions_witness :
  VUndefined <> VNull /\
  exists cfg,
    module_exports VUndefined VUndefined = Return cfg /\
    (RegExp_test eslint_test_pattern "package.json" = true <->
     exists e p, In e (extensions (resolve cfg)) /\
                 "package.json" = (p ++ e)%string).
Proof.
  split; [discriminate |].
  destruct (lint_test_is_resolve_extensions VUndefined VUndefined)
    as (cfg & Hcfg & _ & _ & Hiff); [discriminate |].
  exists cfg. split; [exact Hcfg | apply Hiff].
Defined.

(** X12: both rules exclude the same names, those with [node_modules]
    anywhere in them: the pattern is tied to no path separator, so a name
    such as [src/node_modules_list.js] is excluded as well. *)
Theorem exclude_is_substring_test :
  exclude eslint_rule = VRegExp (pattern_source exclude_pattern) /\
  exclude babel_rule = VRegExp (pattern_source exclude_pattern) /\
  (forall s : string,
     RegExp_test exclude_pattern s = true <->
     exists p q, s = (p ++ "node_modules" ++ q)%string) /\
  RegExp_test exclude_pattern "src/node_modules_list.js" = true.
Proof.
  split; [apply rule_patterns |]. split; [apply rule_patterns |].
  split; [exact RegExp_test_exclude | reflexivity].
Qed.
